(** * Dudley's Second Bedroom: the Dagger CI module

    A shallow embedding of [.dagger/src/dudleys_second_bedroom/main.py].

    The module is a client of the Dagger engine.  Its objects
    ([dagger.Directory], [dagger.Container], [dagger.File]) are lazy
    descriptions of work; the engine is contacted only by the awaited leaf
    calls of the source ([.sync()], [.stdout()], [.publish()],
    [.contents()]).  The embedding keeps that split:

    - descriptions are inductive values built by the same method chains as
      in the source;
    - the engine is a record of oracles ([Engine]) giving the outcome of
      every external action (image pull, command execution, image build,
      registry push, file read);
    - the [async def] functions of the module live in a small
      trace-and-error monad [M]: the trace records every external action
      in the order it is issued, the error is the raised exception;
    - a method of the SDK that is given a value of another type than it
      declares raises a [TypeError] at the call, before the engine is
      contacted. *)

From Stdlib Require Import String Ascii List ZArith Bool.
Import ListNotations.
Open Scope list_scope.
Open Scope string_scope.

(** ** Python string helpers *)

Module Py.

(** The line feed of the Python literals. *)
Definition nl : string := String "010"%char EmptyString.

(** [s.split(sep)] for a one-character separator: never the empty list. *)
Fixpoint split (sep : ascii) (s : string) : list string :=
  match s with
  | EmptyString => [EmptyString]
  | String c rest =>
      if Ascii.eqb c sep then EmptyString :: split sep rest
      else match split sep rest with
           | [] => [String c EmptyString]
           | piece :: pieces => String c piece :: pieces
           end
  end.

(** [l[-1]] on a list of strings (the lists indexed in the source come
    from [split] and are never empty). *)
Definition last_item (l : list string) : string := List.last l EmptyString.

(** [l.append(x)], as a new list. *)
Definition append (l : list string) (x : string) : list string :=
  (l ++ [x])%list.

(** [sep.join(l)] *)
Definition join (sep : string) (l : list string) : string :=
  String.concat sep l.

(** [sep in s] for a one-character separator. *)
Fixpoint occurs (sep : ascii) (s : string) : bool :=
  match s with
  | EmptyString => false
  | String c rest => Ascii.eqb c sep || occurs sep rest
  end.

(** Truthiness of a [str]: the empty string is false. *)
Definition truthy (s : string) : bool :=
  match s with
  | EmptyString => false
  | String _ _ => true
  end.

End Py.

(** ** Dagger objects (lazy descriptions) *)

(** [dagger.Secret]: an opaque handle. *)
Inductive Secret : Type :=
| SecretHandle (name : string).

(** A Python value given for a parameter that the SDK declares as [str]:
    the functions of the module hand over either a string or a secret
    handle. *)
Inductive PyArg : Type :=
| PyStr (s : string)
| PySecret (s : Secret).

(** [dagger.BuildArg(name=..., value=...)] *)
Record BuildArg : Type := mkBuildArg { name : string; value : string }.

(** [dagger.Directory]: a handle supplied by the caller, or a
    subdirectory selected with [.directory(path)]. *)
Inductive Directory : Type :=
| DirHandle (id : string)
| directory (d : Directory) (path : string).

(** [dagger.Container]: the method chain that describes it. *)
Inductive Container : Type :=
| dag_container
| from_ (c : Container) (address : string)
| with_exec (c : Container) (args : list string)
| with_directory (c : Container) (path : string) (d : Directory)
| with_mounted_directory (c : Container) (path : string) (d : Directory)
| with_workdir (c : Container) (path : string)
| with_registry_auth (c : Container) (address username : string) (secret : Secret)
| docker_build (d : Directory) (dockerfile : string) (build_args : list BuildArg).

(** [dagger.File] *)
Inductive File : Type :=
| file (d : Directory) (path : string)
| container_file (c : Container) (path : string).

(** ** The engine *)

(** Outcome of one command run by [with_exec]. *)
Record ExecResult : Type :=
  mkExecResult { exit_code : Z; stdout_of : string; stderr_of : string }.

(** The exceptions of a run.  [dagger.ExecError] carries the command, its
    exit code and its output; every other failure of the engine is a
    [QueryError].  The methods of the SDK check the types of their
    arguments when they are called: a [TypeError] names the parameter
    whose argument was refused. *)
Inductive DaggerError : Type :=
| ExecError (command : list string) (r : ExecResult)
| QueryError (message : string)
| TypeError (parameter : string).

(** The external world.  A container is content addressed, so the outcome
    of a command is a function of the container it runs in and of the
    command. *)
Record Engine : Type := mkEngine {
  pull : string -> bool;
  exec : Container -> list string -> ExecResult;
  dir_exists : Directory -> bool;
  read_file : Directory -> string -> option string;
  image_build : Directory -> string -> list BuildArg -> bool;
  push : Container -> string -> option string;
  export_file : Container -> string -> option string
}.

(** The stages of the pipeline. *)
Inductive Stage : Type := Validate | Build | Test | Publish.

(** What a run leaves behind, in order. *)
Inductive Event : Type :=
| EvCall (s : Stage)
| EvPull (address : string)
| EvExec (command : list string) (r : ExecResult)
| EvImageBuild (d : Directory) (dockerfile : string) (build_args : list BuildArg)
| EvAuth (address username : string) (secret : Secret)
| EvPush (c : Container) (ref : string)
| EvRead (d : Directory) (path : string).

Definition Trace : Type := list Event.

(** ** The trace-and-error monad *)

Inductive Result (A : Type) : Type :=
| Ok (a : A)
| Raise (e : DaggerError).
Arguments Ok {A} a.
Arguments Raise {A} e.

Definition M (A : Type) : Type := (Trace * Result A)%type.

Definition ret {A} (a : A) : M A := ([], Ok a).
Definition raise {A} (e : DaggerError) : M A := ([], Raise e).
Definition tell (ev : Event) : M unit := ([ev], Ok tt).

Definition bind {A B} (m : M A) (k : A -> M B) : M B :=
  match m with
  | (t, Ok a) => let (t', r) := k a in ((t ++ t')%list, r)
  | (t, Raise e) => (t, Raise e)
  end.

Declare Scope dagger_scope.
Delimit Scope dagger_scope with dagger.
Notation "x <- m ;; k" := (bind m (fun x => k))
  (at level 61, m at next level, right associativity) : dagger_scope.
Notation "m ;; k" := (bind m (fun _ => k))
  (at level 61, right associativity) : dagger_scope.
Open Scope dagger_scope.

Definition trace_of {A} (m : M A) : Trace := fst m.
Definition result_of {A} (m : M A) : Result A := snd m.

Definition succeeded {A} (m : M A) : Prop := exists a, result_of m = Ok a.

(** ** Checked calls of the SDK *)

(** [c.with_registry_auth(address, username, secret)].  The SDK declares
    [username: str] and checks it at the call, before anything is sent to
    the engine. *)
Definition Container_with_registry_auth (c : Container) (address : string)
  (username : PyArg) (secret : Secret) : M Container :=
  match username with
  | PyStr name => ret (with_registry_auth c address name secret)
  | PySecret _ => raise (TypeError "username")
  end.

(** ** Evaluation by the engine *)

Section Module_functions.

Variable eng : Engine.

(** The engine runs a description front to back and stops at the first
    step that fails; [with_exec] fails on a non-zero exit code. *)
Fixpoint eval (c : Container) : M unit :=
  match c with
  | dag_container => ret tt
  | from_ c' address =>
      eval c' ;;
      tell (EvPull address) ;;
      if pull eng address then ret tt
      else raise (QueryError ("failed to resolve image " ++ address))
  | with_exec c' args =>
      eval c' ;;
      let r := exec eng c' args in
      tell (EvExec args r) ;;
      if (exit_code r =? 0)%Z then ret tt else raise (ExecError args r)
  | with_directory c' path d =>
      eval c' ;;
      if dir_exists eng d then ret tt
      else raise (QueryError ("no such directory for " ++ path))
  | with_mounted_directory c' path d =>
      eval c' ;;
      if dir_exists eng d then ret tt
      else raise (QueryError ("no such directory for " ++ path))
  | with_workdir c' _ => eval c'
  | with_registry_auth c' address username secret =>
      eval c' ;;
      tell (EvAuth address username secret)
  | docker_build d dockerfile build_args =>
      tell (EvImageBuild d dockerfile build_args) ;;
      if image_build eng d dockerfile build_args then ret tt
      else raise (QueryError ("failed to build " ++ dockerfile))
  end.

(** The command whose output [.stdout()] reports: the last one of the
    chain. *)
Fixpoint last_exec (c : Container) : option (Container * list string) :=
  match c with
  | with_exec c' args => Some (c', args)
  | with_directory c' _ _ => last_exec c'
  | with_mounted_directory c' _ _ => last_exec c'
  | with_workdir c' _ => last_exec c'
  | with_registry_auth c' _ _ _ => last_exec c'
  | dag_container => None
  | from_ _ _ => None
  | docker_build _ _ _ => None
  end.

(** [await c.sync()] *)
Definition Container_sync (c : Container) : M Container :=
  eval c ;; ret c.

(** [await c.stdout()] *)
Definition Container_stdout (c : Container) : M string :=
  eval c ;;
  match last_exec c with
  | Some (c', args) => ret (stdout_of (exec eng c' args))
  | None => raise (QueryError "no command has been set")
  end.

(** [await c.publish(ref)]: the address the registry reports. *)
Definition Container_publish (c : Container) (ref : string) : M string :=
  eval c ;;
  tell (EvPush c ref) ;;
  match push eng c ref with
  | Some address => ret address
  | None => raise (QueryError ("failed to publish " ++ ref))
  end.

(** [await f.contents()] *)
Definition File_contents (f : File) : M string :=
  match f with
  | file d path =>
      tell (EvRead d path) ;;
      match read_file eng d path with
      | Some bytes => ret bytes
      | None => raise (QueryError ("no such file " ++ path))
      end
  | container_file c path =>
      eval c ;;
      match export_file eng c path with
      | Some bytes => ret bytes
      | None => raise (QueryError ("no such file " ++ path))
      end
  end.

(** ** The functions of [DudleysSecondBedroom] *)

(** [validate(source)]: an ordinary [def]; it only describes the checks. *)
Definition validate (source : Directory) : Container :=
  with_exec
    (with_exec
      (with_exec
        (with_exec
          (with_workdir
            (with_directory
              (with_exec
                (from_ dag_container "fedora:41")
                ["dnf"; "install"; "-y"; "shellcheck"; "jq"; "git"])
              "/workspace" source)
            "/workspace")
          ["bash"; "-c"; "find build_files -name '*.sh' -exec shellcheck {} +"])
        ["jq"; "empty"; "packages.json"])
      ["bash"; "tests/validate-modules.sh"])
    ["bash"; "tests/validate-packages.sh"].

(** Default values of the parameters of [build]. *)
Definition default_image_name : string := "dudleys-second-bedroom".
Definition default_tag : string := "latest".
Definition default_base_image : string := "ghcr.io/ublue-os/bluefin-dx:latest".
Definition default_git_commit : string := "unknown".

(** [build(source, image_name, tag, base_image, git_commit)]: no awaited
    call in its body, it returns the description of the build. *)
Definition build (source : Directory) (image_name tag base_image git_commit : string)
  : M Container :=
  ret (docker_build source "Containerfile"
         [ mkBuildArg "IMAGE_NAME" image_name;
           mkBuildArg "SHA_HEAD_SHORT" git_commit ]).

(** [check_containerfile(source)] *)
Definition check_containerfile (source : Directory) : M string :=
  File_contents (file source "Containerfile").

(** [test(image)] *)
Definition test (image : Container) : M string :=
  result <-
    Container_stdout
      (with_exec
        (with_exec
          (with_exec
            (with_exec image ["test"; "-f"; "/etc/dudley/build-manifest.json"])
            ["test"; "-f"; "/usr/bin/dudley-build-info"])
          ["bash"; "-c"; "ls -lh /usr/share/ublue-os/user-setup.hooks.d/"])
        ["dudley-build-info"; "--json"]) ;;
  ret ("✅ All tests passed!" ++ Py.nl ++ Py.nl ++ "Build info:" ++ Py.nl ++ result).

(** [publish(image, registry, repository, username, password, tag)].
    [username] is a [dagger.Secret]; the source hands it to
    [with_registry_auth] as it is. *)
Definition publish (image : Container) (registry repository : string)
  (username password : Secret) (tag : string) : M string :=
  let image_ref := registry ++ "/" ++ repository ++ ":" ++ tag in
  (* Publish with authentication *)
  authed <-
    Container_with_registry_auth image registry (PySecret username) password ;;
  address <- Container_publish authed image_ref ;;
  ret ("✅ Published to: " ++ address).

(** [build_iso(source, image_ref, config_file)]: returns the description
    of the output file. *)
Definition build_iso (source : Directory) (image_ref config_file : string)
  : M File :=
  ret (container_file
         (with_exec
           (with_directory
             (from_ dag_container "quay.io/centos-bootc/bootc-image-builder:latest")
             "/config" (directory source "disk_config"))
           [ "bootc-image-builder";
             "--type"; "iso";
             "--config"; "/config/" ++ Py.last_item (Py.split "/" config_file);
             image_ref ])
         "/output/image.iso").

(** [build_qcow2(source, image_ref, config_file)] *)
Definition build_qcow2 (source : Directory) (image_ref config_file : string)
  : M File :=
  ret (container_file
         (with_exec
           (with_directory
             (from_ dag_container "quay.io/centos-bootc/bootc-image-builder:latest")
             "/config" (directory source "disk_config"))
           [ "bootc-image-builder";
             "--type"; "qcow2";
             "--config"; "/config/" ++ Py.last_item (Py.split "/" config_file);
             image_ref ])
         "/output/image.qcow2").

(** [lint_containerfile(source)] *)
Definition lint_containerfile (source : Directory) : Container :=
  with_exec
    (with_workdir
      (with_mounted_directory
        (from_ dag_container "hadolint/hadolint:latest")
        "/workspace" source)
      "/workspace")
    ["hadolint"; "Containerfile"].

(** A call of a stage method from [ci_pipeline], recorded in the trace. *)
Definition call {A} (s : Stage) (m : M A) : M A := tell (EvCall s) ;; m.

(** The status lines of [ci_pipeline]. *)
Definition line_validating : string := "🔍 Running validation...".
Definition line_validated : string := "✅ Validation passed".
Definition line_building (git_commit : string) : string :=
  "🔨 Building image (commit: " ++ git_commit ++ ")...".
Definition line_built : string := "✅ Build completed".
Definition line_testing : string := "🧪 Running tests...".
Definition line_skip_publish : string :=
  "⚠️  Skipping publish: username and password required".
Definition line_publishing : string := "📦 Publishing image...".

(** The body of [ci_pipeline] up to its [return]: the list [results].
    [results.append(x)] is [Py.append results x].  A [dagger.Secret] handle is
    truthy, so [not username or not password] holds exactly when one of
    the two is [None]. *)
Definition ci_pipeline_results (source : Directory)
  (repository registry tag git_commit : string)
  (username password : option Secret) (run_tests publish_image : bool)
  : M (list string) :=
  let results := [] in
  (* Step 1: Validate *)
  let results := Py.append results line_validating in
  validation <- call Validate (ret (validate source)) ;;
  Container_sync validation ;;
  let results := Py.append results line_validated in
  (* Step 2: Build *)
  let results := Py.append results (line_building git_commit) in
  image <-
    call Build
      (build source
        (if Py.truthy repository
         then Py.last_item (Py.split "/" repository)
         else "dudleys-second-bedroom")
        tag default_base_image git_commit) ;;
  let results := Py.append results line_built in
  (* Step 3: Test (optional) *)
  results <-
    (if run_tests then
       let results := Py.append results line_testing in
       test_result <- call Test (test image) ;;
       ret (Py.append results test_result)
     else ret results) ;;
  (* Step 4: Publish (optional) *)
  results <-
    (if publish_image then
       match username, password with
       | Some username, Some password =>
           let results := Py.append results line_publishing in
           publish_result <-
             call Publish
               (publish image registry repository username password tag) ;;
           ret (Py.append results publish_result)
       | _, _ =>
           ret (Py.append results line_skip_publish)
       end
     else ret results) ;;
  ret results.

(** [ci_pipeline(...)]: the lines joined by line feeds. *)
Definition ci_pipeline (source : Directory)
  (repository registry tag git_commit : string)
  (username password : option Secret) (run_tests publish_image : bool)
  : M string :=
  results <-
    ci_pipeline_results source repository registry tag git_commit
      username password run_tests publish_image ;;
  ret (Py.join Py.nl results).

End Module_functions.

(** ** Specification vocabulary *)

(** The commands of [validate], named for the statements below. *)
Definition install_cmd : list string :=
  ["dnf"; "install"; "-y"; "shellcheck"; "jq"; "git"].
Definition shellcheck_cmd : list string :=
  ["bash"; "-c"; "find build_files -name '*.sh' -exec shellcheck {} +"].
Definition jq_cmd : list string := ["jq"; "empty"; "packages.json"].
Definition modules_cmd : list string := ["bash"; "tests/validate-modules.sh"].
Definition packages_cmd : list string := ["bash"; "tests/validate-packages.sh"].

(** The four checks of [validate], in the order of the source. *)
Definition validate_checks : list (list string) :=
  [shellcheck_cmd; jq_cmd; modules_cmd; packages_cmd].

(** The environment in which [validate] runs its checks. *)
Definition validate_env (source : Directory) : Container :=
  with_workdir
    (with_directory
      (with_exec (from_ dag_container "fedora:41") install_cmd)
      "/workspace" source)
    "/workspace".

(** [l1] is an initial segment of [l2]. *)
Definition is_prefix {A} (l1 l2 : list A) : Prop :=
  exists rest, l2 = (l1 ++ rest)%list.

(** The stage methods called during a run, in order. *)
Definition stage_calls (t : Trace) : list Stage :=
  flat_map (fun ev => match ev with EvCall s => [s] | _ => [] end) t.

(** The commands executed during a run, in order. *)
Definition commands_run (t : Trace) : list (list string) :=
  flat_map (fun ev => match ev with EvExec cmd _ => [cmd] | _ => [] end) t.

(** A command ran and exited with status zero. *)
Definition exited_zero (t : Trace) (cmd : list string) : Prop :=
  exists r, In (EvExec cmd r) t /\ exit_code r = 0%Z.

(** Events of the publish step: the call of [publish], the registry
    authentication and the push. *)
Definition is_publish_event (ev : Event) : bool :=
  match ev with
  | EvCall Publish => true
  | EvAuth _ _ _ => true
  | EvPush _ _ => true
  | _ => false
  end.

(** Events that only read from the source tree. *)
Definition is_read (ev : Event) : bool :=
  match ev with
  | EvRead _ _ => true
  | _ => false
  end.

(** A description that configures registry credentials somewhere. *)
Fixpoint has_auth (c : Container) : bool :=
  match c with
  | with_registry_auth _ _ _ _ => true
  | from_ c' _ => has_auth c'
  | with_exec c' _ => has_auth c'
  | with_directory c' _ _ => has_auth c'
  | with_mounted_directory c' _ _ => has_auth c'
  | with_workdir c' _ => has_auth c'
  | dag_container => false
  | docker_build _ _ _ => false
  end.

(** The build arguments and the build file of a [docker_build]. *)
Definition build_args_of (c : Container) : list BuildArg :=
  match c with
  | docker_build _ _ build_args => build_args
  | _ => []
  end.

Definition dockerfile_of (c : Container) : option string :=
  match c with
  | docker_build _ dockerfile _ => Some dockerfile
  | _ => None
  end.

(** The command line handed to the disk-image builder by a file
    description, and the value that follows an option in it. *)
Definition tool_invocation (f : File) : list string :=
  match f with
  | container_file (with_exec _ args) _ => args
  | _ => []
  end.

Fixpoint option_value (flag : string) (args : list string) : option string :=
  match args with
  | [] => None
  | a :: rest =>
      match rest with
      | v :: _ => if String.eqb a flag then Some v else option_value flag rest
      | [] => None
      end
  end.

(** The image that [ci_pipeline] hands to [build]. *)
Definition pipeline_image (source : Directory) (repository git_commit : string)
  : Container :=
  docker_build source "Containerfile"
    [ mkBuildArg "IMAGE_NAME"
        (if Py.truthy repository
         then Py.last_item (Py.split "/" repository)
         else "dudleys-second-bedroom");
      mkBuildArg "SHA_HEAD_SHORT" git_commit ].

(** The stages a run calls when nothing fails.  The publish stage is
    called only with both credentials. *)
Definition plan (username password : option Secret)
  (run_tests publish_image : bool) : list Stage :=
  ([Validate; Build]
   ++ (if run_tests then [Test] else [])
   ++ (if publish_image
       then match username, password with
            | Some _, Some _ => [Publish]
            | _, _ => []
            end
       else []))%list.

(** ** Concrete engines, for the examples *)

Definition status (code : Z) (out : string) : ExecResult :=
  mkExecResult code out EmptyString.

Definition same_command (a b : list string) : bool :=
  if list_eq_dec string_dec a b then true else false.

(** Everything succeeds; the source holds a two-line Containerfile. *)
Definition engine_ok : Engine :=
  mkEngine
    (fun _ => true)
    (fun _ _ => status 0 "{}")
    (fun _ => true)
    (fun _ path =>
       if String.eqb path "Containerfile"
       then Some ("FROM scratch" ++ Py.nl ++ "COPY / /" ++ Py.nl)
       else None)
    (fun _ _ _ => true)
    (fun _ ref => Some (ref ++ "@sha256:0123"))
    (fun _ _ => None).

(** As [engine_ok], but [packages.json] is malformed: [jq empty] exits
    with status 2. *)
Definition engine_bad_json : Engine :=
  mkEngine
    (fun _ => true)
    (fun _ cmd =>
       if same_command cmd jq_cmd
       then mkExecResult 2 EmptyString "jq: error: parse error"
       else status 0 "{}")
    (fun _ => true)
    (fun _ _ => None)
    (fun _ _ _ => true)
    (fun _ ref => Some (ref ++ "@sha256:0123"))
    (fun _ _ => None).

(** As [engine_ok], but the image build fails. *)
Definition engine_bad_build : Engine :=
  mkEngine
    (fun _ => true)
    (fun _ _ => status 0 "{}")
    (fun _ => true)
    (fun _ _ => None)
    (fun _ _ _ => false)
    (fun _ ref => Some (ref ++ "@sha256:0123"))
    (fun _ _ => None).

Definition some_source : Directory := DirHandle "dudleys-second-bedroom".

(** ** Vocabulary for the other functions *)

(** The assertions of [test], in the order of the source. *)
Definition manifest_cmd : list string :=
  ["test"; "-f"; "/etc/dudley/build-manifest.json"].
Definition build_info_present_cmd : list string :=
  ["test"; "-f"; "/usr/bin/dudley-build-info"].
Definition hooks_cmd : list string :=
  ["bash"; "-c"; "ls -lh /usr/share/ublue-os/user-setup.hooks.d/"].
Definition build_info_cmd : list string := ["dudley-build-info"; "--json"].

Definition test_assertions : list (list string) :=
  [manifest_cmd; build_info_present_cmd; hooks_cmd; build_info_cmd].

(** The container in which [test] runs its last command. *)
Definition tested (image : Container) : Container :=
  with_exec (with_exec (with_exec image manifest_cmd) build_info_present_cmd)
    hooks_cmd.

(** The text [test] puts before the build information. *)
Definition tests_passed_header : string :=
  "✅ All tests passed!" ++ Py.nl ++ Py.nl ++ "Build info:" ++ Py.nl.

(** The command of [lint_containerfile]. *)
Definition lint_cmd : list string := ["hadolint"; "Containerfile"].

(** The image builds requested during a run, in order. *)
Definition image_builds (t : Trace) : list (Directory * string * list BuildArg) :=
  flat_map (fun ev => match ev with
                      | EvImageBuild d dockerfile build_args =>
                          [(d, dockerfile, build_args)]
                      | _ => []
                      end) t.

(** The pushes attempted during a run, in order. *)
Definition pushes (t : Trace) : list (Container * string) :=
  flat_map (fun ev => match ev with EvPush c ref => [(c, ref)] | _ => [] end) t.



(** The number of report entries contributed by the optional stages. *)
Definition test_entries (run_tests : bool) : nat :=
  if run_tests then 2 else 0.

Definition skip_entries (publish_image : bool) : nat :=
  if publish_image then 1 else 0.

(** Events that reach the registry: the configuration of credentials and
    the push. *)
Definition is_registry_event (ev : Event) : bool :=
  match ev with
  | EvAuth _ _ _ => true
  | EvPush _ _ => true
  | _ => false
  end.

(** As [engine_ok], but the linter reports findings: [hadolint] exits
    with status 1. *)
Definition engine_lint_findings : Engine :=
  mkEngine
    (fun _ => true)
    (fun _ cmd =>
       if same_command cmd lint_cmd
       then mkExecResult 1 "Containerfile:3 DL3006 warning" EmptyString
       else status 0 "{}")
    (fun _ => true)
    (fun _ _ => None)
    (fun _ _ _ => true)
    (fun _ ref => Some (ref ++ "@sha256:0123"))
    (fun _ _ => None).

(** ** Facts about the Python helpers *)

Lemma split_nonempty (sep : ascii) (s : string) : Py.split sep s <> [].
Proof.
  destruct s as [|c rest]; simpl; [discriminate|].
  destruct (Ascii.eqb c sep); [discriminate|].
  destruct (Py.split sep rest); discriminate.
Qed.

(** Splitting distributes over a separator placed between two strings. *)
Lemma split_app_sep (sep : ascii) (p s : string) :
  Py.split sep (p ++ String sep s) = (Py.split sep p ++ Py.split sep s)%list.
Proof.
  induction p as [|c p IH]; simpl.
  - now rewrite Ascii.eqb_refl.
  - destruct (Ascii.eqb c sep); [now rewrite IH|].
    rewrite IH.
    destruct (Py.split sep p) as [|piece pieces] eqn:E; [|reflexivity].
    now apply split_nonempty in E.
Qed.

Lemma last_app_nonempty (l1 l2 : list string) :
  l2 <> [] -> Py.last_item (l1 ++ l2)%list = Py.last_item l2.
Proof.
  unfold Py.last_item. intros H.
  induction l1 as [|x l1 IH]; [reflexivity|].
  simpl. destruct (l1 ++ l2)%list eqn:E; [|exact IH].
  apply app_eq_nil in E. destruct E; contradiction.
Qed.

(** The last path component does not depend on the directory prefix. *)
Lemma basename_prefix (prefix rest : string) :
  Py.last_item (Py.split "/" (prefix ++ "/" ++ rest))
  = Py.last_item (Py.split "/" rest).
Proof.
  change (prefix ++ "/" ++ rest) with (prefix ++ String "/" rest).
  rewrite split_app_sep. apply last_app_nonempty, split_nonempty.
Qed.




(** ** Facts about the monad and the engine *)

(** [M] is a monad. *)
Lemma bind_ret_l {A B} (a : A) (k : A -> M B) : bind (ret a) k = k a.
Proof. unfold bind, ret. now destruct (k a). Qed.

Lemma bind_ret_r {A} (m : M A) : bind m ret = m.
Proof.
  destruct m as [t [a|e]]; unfold bind, ret; [|reflexivity].
  now rewrite app_nil_r.
Qed.

Lemma bind_assoc {A B C} (m : M A) (f : A -> M B) (g : B -> M C) :
  bind (bind m f) g = bind m (fun a => bind (f a) g).
Proof.
  destruct m as [t [a|e]]; unfold bind; [|reflexivity].
  destruct (f a) as [t' [b|e']]; [|reflexivity].
  destruct (g b) as [t'' r]. now rewrite app_assoc.
Qed.

Section Engine_facts.

Variable eng : Engine.

(** Evaluating a description issues no stage call and no push, and
    authenticates only if the description configures credentials. *)
Lemma eval_no_publish_event (c : Container) :
  has_auth c = false ->
  Forall (fun ev => is_publish_event ev = false) (trace_of (eval eng c)).
Proof.
  induction c as [|c IH a|c IH args|c IH p d|c IH p d|c IH p|c IH a u s|d f args];
    simpl; intros H; try discriminate.
  - constructor.
  - specialize (IH H). destruct (eval eng c) as [t [[]|e]]; simpl in *; [|exact IH].
    destruct (pull eng a); simpl; rewrite Forall_app; split; auto.
  - specialize (IH H). destruct (eval eng c) as [t [[]|e]]; simpl in *; [|exact IH].
    destruct (exit_code (exec eng c args) =? 0)%Z; simpl;
      rewrite Forall_app; split; auto.
  - specialize (IH H). destruct (eval eng c) as [t [[]|e]]; simpl in *; [|exact IH].
    destruct (dir_exists eng d); simpl; rewrite app_nil_r; exact IH.
  - specialize (IH H). destruct (eval eng c) as [t [[]|e]]; simpl in *; [|exact IH].
    destruct (dir_exists eng d); simpl; rewrite app_nil_r; exact IH.
  - auto.
  - destruct (image_build eng d f args); simpl; auto.
Qed.

(** Evaluating a description calls no stage method. *)
Lemma eval_no_stage_call (c : Container) :
  stage_calls (trace_of (eval eng c)) = [].
Proof.
  induction c as [|c IH a|c IH args|c IH p d|c IH p d|c IH p|c IH a u s|d f args];
    simpl; auto.
  - destruct (eval eng c) as [t [[]|e]]; simpl in *; [|exact IH].
    unfold stage_calls in *.
    destruct (pull eng a); simpl; rewrite flat_map_app, IH; reflexivity.
  - destruct (eval eng c) as [t [[]|e]]; simpl in *; [|exact IH].
    unfold stage_calls in *.
    destruct (exit_code (exec eng c args) =? 0)%Z; simpl;
      rewrite flat_map_app, IH; reflexivity.
  - destruct (eval eng c) as [t [[]|e]]; simpl in *; [|exact IH].
    destruct (dir_exists eng d); simpl; rewrite app_nil_r; exact IH.
  - destruct (eval eng c) as [t [[]|e]]; simpl in *; [|exact IH].
    destruct (dir_exists eng d); simpl; rewrite app_nil_r; exact IH.
  - destruct (eval eng c) as [t [[]|e]]; simpl in *; [|exact IH].
    unfold stage_calls in *. rewrite flat_map_app, IH. reflexivity.
  - destruct (image_build eng d f args); reflexivity.
Qed.

End Engine_facts.

Section Pipeline_facts.

Variable eng : Engine.

Lemma stage_calls_app (t1 t2 : Trace) :
  stage_calls (t1 ++ t2)%list = (stage_calls t1 ++ stage_calls t2)%list.
Proof. apply flat_map_app. Qed.

Lemma sync_no_stage_call (c : Container) :
  stage_calls (trace_of (Container_sync eng c)) = [].
Proof.
  unfold Container_sync. generalize (eval_no_stage_call eng c).
  destruct (eval eng c) as [t [[]|e]]; simpl; intros H; [|exact H].
  now rewrite app_nil_r.
Qed.

Lemma test_no_stage_call (image : Container) :
  stage_calls (trace_of (test eng image)) = [].
Proof.
  unfold test, Container_stdout.
  match goal with |- context [eval eng ?c] =>
    generalize (eval_no_stage_call eng c); destruct (eval eng c) as [t [[]|e]]
  end; simpl; intros H; [|exact H].
  now rewrite !app_nil_r.
Qed.

Lemma publish_no_stage_call (image : Container) (registry repository : string)
  (username password : Secret) (tag : string) :
  stage_calls
    (trace_of (publish eng image registry repository username password tag)) = [].
Proof. reflexivity. Qed.

Lemma sync_validate_no_publish_event (source : Directory) :
  Forall (fun ev => is_publish_event ev = false)
    (trace_of (Container_sync eng (validate source))).
Proof.
  unfold Container_sync.
  generalize (eval_no_publish_event eng (validate source) eq_refl).
  destruct (eval eng (validate source)) as [t [[]|e]]; simpl; intros H; [|exact H].
  now rewrite app_nil_r.
Qed.

Lemma test_no_publish_event (image : Container) :
  has_auth image = false ->
  Forall (fun ev => is_publish_event ev = false) (trace_of (test eng image)).
Proof.
  intros Hi. unfold test, Container_stdout.
  match goal with |- context [eval eng ?c] =>
    generalize (eval_no_publish_event eng c Hi); destruct (eval eng c) as [t [[]|e]]
  end; simpl; intros H; [|exact H].
  now rewrite !app_nil_r.
Qed.

End Pipeline_facts.

(** Case analysis of a pipeline run along its stages: the outcome of the
    validation, then of the tests, then of the publication. *)
Ltac step :=
  cbn [bind ret raise tell app Py.append trace_of result_of fst snd].

Ltac split_validation eng source :=
  destruct (Container_sync eng (validate source)) as [tv [cv|ev]] eqn:Hval; step.

Ltac split_tests eng run_tests :=
  destruct run_tests; step;
  [ match goal with
    | |- context [test eng ?c] =>
        destruct (test eng c) as [tt [st|et]] eqn:Htest; step
    end
  | ].

Ltac split_publish eng publish_image username password :=
  destruct publish_image; step;
  [ destruct username as [u|]; step;
    [ destruct password as [p|]; step;
      [ match goal with
        | |- context [publish eng ?c ?r ?o ?u ?p ?t] =>
            destruct (publish eng c r o u p t) as [tp [sp|ep]] eqn:Hpub; step
        end
      | ]
    | ]
  | ].

Ltac pipeline_run eng source run_tests publish_image username password :=
  unfold ci_pipeline, ci_pipeline_results, call, build, pipeline_image,
    succeeded in *;
  step;
  split_validation eng source;
  [ split_tests eng run_tests;
    [ split_publish eng publish_image username password
    | idtac
    | split_publish eng publish_image username password ]
  | ].

(** The stage traces carry no stage call of their own. *)
Ltac stage_traces eng :=
  repeat match goal with
  | H : Container_sync eng ?c = (?t, _) |- _ =>
      lazymatch goal with
      | _ : stage_calls t = [] |- _ => fail
      | _ => let F := fresh "Hcalls" in
             pose proof (sync_no_stage_call eng c) as F;
             rewrite H in F; cbn [trace_of fst] in F
      end
  | H : test eng ?c = (?t, _) |- _ =>
      lazymatch goal with
      | _ : stage_calls t = [] |- _ => fail
      | _ => let F := fresh "Hcalls" in
             pose proof (test_no_stage_call eng c) as F;
             rewrite H in F; cbn [trace_of fst] in F
      end
  | H : publish eng ?c ?r ?o ?u ?p ?g = (?t, _) |- _ =>
      lazymatch goal with
      | _ : stage_calls t = [] |- _ => fail
      | _ => let F := fresh "Hcalls" in
             pose proof (publish_no_stage_call eng c r o u p g) as F;
             rewrite H in F; cbn [trace_of fst] in F
      end
  end.

Lemma stage_calls_cons_call (s : Stage) (t : Trace) :
  stage_calls (EvCall s :: t) = s :: stage_calls t.
Proof. reflexivity. Qed.

Ltac count_calls :=
  repeat first
    [ rewrite stage_calls_cons_call
    | rewrite stage_calls_app
    | rewrite app_nil_r
    | match goal with H : stage_calls _ = [] |- _ => rewrite H end
    | progress cbn [app] ];
  change (stage_calls []) with (@nil Stage).

(** C4.  In every run of [ci_pipeline] the stage methods are called in
    the fixed order Validate, Build, Test (when enabled), Publish (when
    enabled and the credentials are present), each at most once.  An
    error raised in a stage is the result of the run and no later stage is
    called; in particular, when the validation fails the run stops there:
    its trace is the call of [validate] followed by the trace of the
    validation, and Build, Test and Publish are not called.  Every error
    of a run is the error of one of its stages. *)
Theorem ci_pipeline_stage_order :
  forall eng source repository registry tag git_commit username password
         run_tests publish_image,
    let run := ci_pipeline eng source repository registry tag git_commit
                 username password run_tests publish_image in
    let validation := Container_sync eng (validate source) in
    let image := pipeline_image source repository git_commit in
    is_prefix (stage_calls (trace_of run))
      (plan username password run_tests publish_image)
    /\ (succeeded run ->
        stage_calls (trace_of run)
        = plan username password run_tests publish_image)
    /\ (forall e, result_of validation = Raise e ->
        result_of run = Raise e
        /\ trace_of run = EvCall Validate :: trace_of validation
        /\ stage_calls (trace_of run) = [Validate])
    /\ (forall e, succeeded validation -> run_tests = true ->
        result_of (test eng image) = Raise e ->
        result_of run = Raise e
        /\ stage_calls (trace_of run) = [Validate; Build; Test])
    /\ (forall e u p, succeeded validation ->
        (run_tests = true -> succeeded (test eng image)) ->
        publish_image = true -> username = Some u -> password = Some p ->
        result_of (publish eng image registry repository u p tag) = Raise e ->
        result_of run = Raise e)
    /\ (forall e, result_of run = Raise e ->
        result_of validation = Raise e
        \/ (run_tests = true /\ result_of (test eng image) = Raise e)
        \/ (exists u p, publish_image = true /\ username = Some u /\ password = Some p
            /\ result_of (publish eng image registry repository u p tag) = Raise e)).
Proof.
  intros eng source repository registry tag git_commit username password
    run_tests publish_image. cbv zeta. unfold plan.
  pipeline_run eng source run_tests publish_image username password;
    stage_traces eng.
  all: repeat match goal with |- _ /\ _ => split end.
  all: intros.
  all: repeat match goal with
       | H : exists _, _ |- _ => destruct H
       | H : Ok _ = Raise _ |- _ => discriminate H
       | H : Raise _ = Ok _ |- _ => discriminate H
       | H : true = false |- _ => discriminate H
       | H : false = true |- _ => discriminate H
       | H : None = Some _ |- _ => discriminate H
       | H : Some _ = Some _ |- _ => injection H as H; subst
       | H : Raise _ = Raise _ |- _ => injection H as H; subst
       | H : true = true -> _ |- _ => specialize (H eq_refl)
       | E : ?x = _, H : context [?x] |- _ =>
           rewrite E in H; cbn [result_of snd] in H
       end.
  all: try solve [ count_calls; first [ reflexivity | eexists; reflexivity ] ].
  all: try solve [ repeat split; count_calls; reflexivity
                 | left; reflexivity
                 | right; left; split; reflexivity
                 | right; left; split; [reflexivity|];
                   match goal with E : _ = _ |- _ => now rewrite E end
                 | right; right; do 2 eexists; repeat split;
                   match goal with E : _ = _ |- _ => now rewrite E end ].
Qed.

(** The stage traces carry no event of the publish step. *)
Ltac publish_free eng :=
  repeat match goal with
  | H : Container_sync eng (validate ?s) = (?t, _) |- _ =>
      lazymatch goal with
      | _ : Forall _ t |- _ => fail
      | _ => let F := fresh "Hfree" in
             pose proof (sync_validate_no_publish_event eng s) as F;
             rewrite H in F; cbn [trace_of fst] in F
      end
  | H : test eng ?c = (?t, _) |- _ =>
      lazymatch goal with
      | _ : Forall _ t |- _ => fail
      | _ => let F := fresh "Hfree" in
             pose proof (test_no_publish_event eng c eq_refl) as F;
             rewrite H in F; cbn [trace_of fst] in F
      end
  end.

(** C1 (as amended).  With [run_tests=False] and [publish_image=False],
    [ci_pipeline] calls [validate] and then [build] and no other stage;
    when the validation succeeds the run succeeds, its trace is the call
    of [validate], the validation itself and the call of [build], and the
    report has four entries, a progress line and a completion line for
    each of the two stages, joined by line feeds into one string. *)
Theorem ci_pipeline_validate_build_only :
  forall eng source repository registry tag git_commit username password,
    let run := ci_pipeline eng source repository registry tag git_commit
                 username password false false in
    let validation := Container_sync eng (validate source) in
    let entries := [ line_validating; line_validated;
                     line_building git_commit; line_built ] in
    is_prefix (stage_calls (trace_of run)) [Validate; Build]
    /\ (succeeded validation ->
        stage_calls (trace_of run) = [Validate; Build]
        /\ trace_of run
           = (EvCall Validate :: trace_of validation ++ [EvCall Build])%list
        /\ result_of
             (ci_pipeline_results eng source repository registry tag
                git_commit username password false false) = Ok entries
        /\ result_of run = Ok (Py.join Py.nl entries)).
Proof.
  intros eng source repository registry tag git_commit username password.
  cbv zeta.
  unfold ci_pipeline, ci_pipeline_results, call, build, succeeded; step.
  split_validation eng source; stage_traces eng.
  - split; [count_calls; now exists []|].
    intros _. repeat split; rewrite ?app_nil_r; try reflexivity.
    count_calls. reflexivity.
  - split; [count_calls; now exists [Build]|].
    intros [a Ha]. discriminate Ha.
Qed.


(** Case analysis of an evaluation along the outcomes of its steps. *)
Ltac run_steps :=
  repeat (step;
          match goal with
          | |- context [if ?b then _ else _] => destruct b eqn:?
          end);
  step.

(** The events equal to a given one in a concrete trace. *)
Ltac pick_event H :=
  cbn [In app] in H;
  repeat (destruct H as [H|H];
          [ try discriminate H; try (injection H; intros; subst) | ]);
  try contradiction.

Ltac exit_codes :=
  repeat match goal with
  | H : (_ =? 0)%Z = true |- _ => apply Z.eqb_eq in H
  | H : (_ =? 0)%Z = false |- _ => apply Z.eqb_neq in H
  end.

(** C2.  Evaluating the checks described by [validate] succeeds if and
    only if each of the four checks (shellcheck over the scripts of
    [build_files], [jq empty packages.json], and the two validation
    scripts) ran and exited with status zero; and whenever a check exits
    with a non-zero status the evaluation fails with the [ExecError] of
    that check, which carries its command, exit status and output. *)
Theorem validate_succeeds_iff_checks_exit_zero :
  forall eng source,
    let run := Container_sync eng (validate source) in
    (succeeded run <->
     forall cmd, In cmd validate_checks -> exited_zero (trace_of run) cmd)
    /\ (forall cmd r,
        In cmd validate_checks ->
        In (EvExec cmd r) (trace_of run) ->
        exit_code r <> 0%Z ->
        result_of run = Raise (ExecError cmd r)).
Proof.
  intros eng source. cbv zeta.
  unfold Container_sync, validate, succeeded, exited_zero, validate_checks.
  cbn [eval]. run_steps; exit_codes.
  all: split; [split|].
  all: lazymatch goal with
       | |- (exists _, _) -> _ =>
           (* only if: a successful evaluation has run the four checks *)
           intros [a Ha]; try discriminate Ha;
           intros cmd Hin;
           unfold shellcheck_cmd, jq_cmd, modules_cmd, packages_cmd in Hin;
           destruct Hin as [<-|[<-|[<-|[<-|[]]]]]; eexists;
           (split; [repeat first [left; reflexivity | right] | assumption])
       | |- _ -> exists _, _ =>
           (* if: the last check ran and exited with status zero *)
           intros H; first [ eexists; reflexivity | idtac ];
           try (specialize (H packages_cmd);
                destruct H as [r [Hin Hz]]; [cbn [In]; tauto|];
                pick_event Hin; contradiction)
       | |- _ =>
           (* a check that exits with a non-zero status is the error *)
           intros cmd r _ Hin Hnz; pick_event Hin;
           first [ reflexivity | contradiction ]
       end.
Qed.

(** C9.  The commands of [validate] run in the order of the source, the
    installation of the tools, shellcheck, the JSON check, then the two
    validation scripts, and stop at the first one that fails: the commands
    of a run are always an initial segment of that list, and all of it
    when the run succeeds, as it does when the environment is set up and
    every command exits with status zero.  When the environment is set
    up, shellcheck exits with status zero and [jq empty packages.json]
    does not, the evaluation fails with the [ExecError] of the JSON check;
    shellcheck has run before it, with status zero, and the validation
    scripts have not run. *)
Theorem validate_fails_at_malformed_json :
  forall eng source,
    let run := Container_sync eng (validate source) in
    let checking := validate_env source in
    let linted := with_exec checking shellcheck_cmd in
    let parsed := with_exec linted jq_cmd in
    let modules_checked := with_exec parsed modules_cmd in
    is_prefix (commands_run (trace_of run)) (install_cmd :: validate_checks)
    /\ (succeeded run ->
        commands_run (trace_of run) = install_cmd :: validate_checks)
    /\ (pull eng "fedora:41" = true ->
        exit_code (exec eng (from_ dag_container "fedora:41") install_cmd) = 0%Z ->
        dir_exists eng source = true ->
        exit_code (exec eng checking shellcheck_cmd) = 0%Z ->
        exit_code (exec eng linted jq_cmd) = 0%Z ->
        exit_code (exec eng parsed modules_cmd) = 0%Z ->
        exit_code (exec eng modules_checked packages_cmd) = 0%Z ->
        succeeded run
        /\ commands_run (trace_of run) = install_cmd :: validate_checks)
    /\ (pull eng "fedora:41" = true ->
        exit_code (exec eng (from_ dag_container "fedora:41") install_cmd) = 0%Z ->
        dir_exists eng source = true ->
        exit_code (exec eng checking shellcheck_cmd) = 0%Z ->
        exit_code (exec eng linted jq_cmd) <> 0%Z ->
        result_of run = Raise (ExecError jq_cmd (exec eng linted jq_cmd))
        /\ commands_run (trace_of run) = [install_cmd; shellcheck_cmd; jq_cmd]
        /\ exited_zero (trace_of run) shellcheck_cmd).
Proof.
  intros eng source. cbv zeta.
  unfold Container_sync, validate, validate_env, succeeded, exited_zero,
    validate_checks, install_cmd, shellcheck_cmd, jq_cmd, modules_cmd,
    packages_cmd.
  cbn [eval]. split; [|split; [|split]].
  - run_steps; unfold commands_run; cbn [flat_map app];
      eexists; reflexivity.
  - run_steps; intros [a Ha]; try discriminate Ha; reflexivity.
  - intros Hpull Hinstall Hdir Hshell Hjq Hmodules Hpackages.
    run_steps; exit_codes; try congruence.
    split; [eexists|]; reflexivity.
  - intros Hpull Hinstall Hdir Hshell Hjq.
    run_steps; exit_codes; try congruence.
    repeat split.
    eexists; split; [repeat first [left; reflexivity | right] | assumption].
Qed.


Example basename_custom_toml :
  Py.last_item (Py.split "/" "disk_config/custom.toml") = "custom.toml"
  /\ Py.last_item (Py.split "/" "custom.toml") = "custom.toml".
Proof. split; reflexivity. Qed.

(** C5.  [build_iso] names the configuration file by its last path
    component inside [/config]: a [config_file] with a directory prefix
    and the same [config_file] without it give the same description,
    hence the same [--config] path (["/config/"] followed by the last
    component) and the same result. *)
Theorem build_iso_config_by_basename :
  forall source image_ref prefix name,
    build_iso source image_ref (prefix ++ "/" ++ name)
    = build_iso source image_ref name
    /\ exists f,
        result_of (build_iso source image_ref (prefix ++ "/" ++ name)) = Ok f
        /\ result_of (build_iso source image_ref name) = Ok f
        /\ option_value "--config" (tool_invocation f)
           = Some ("/config/" ++ Py.last_item (Py.split "/" name)).
Proof.
  intros source image_ref prefix name. unfold build_iso.
  rewrite basename_prefix. split; [reflexivity|].
  eexists. repeat split.
Qed.

(** C6.  On a source that contains a Containerfile,
    [check_containerfile] returns exactly the bytes of that file; its only
    action is the read of that file (no build, no command, no push); and
    calling it twice in a row returns the same bytes twice. *)
Theorem check_containerfile_returns_contents :
  forall eng source bytes,
    read_file eng source "Containerfile" = Some bytes ->
    let run := check_containerfile eng source in
    result_of run = Ok bytes
    /\ trace_of run = [EvRead source "Containerfile"]
    /\ Forall (fun ev => is_read ev = true) (trace_of run)
    /\ result_of (first <- check_containerfile eng source ;;
                  second <- check_containerfile eng source ;;
                  ret (first, second)) = Ok (bytes, bytes).
Proof.
  intros eng source bytes Hfile. cbv zeta.
  unfold check_containerfile, File_contents. rewrite Hfile. step.
  repeat split. repeat constructor.
Qed.

(** C7.  [publish] hands its [username], a secret handle, to
    [with_registry_auth], whose [username] parameter is a [str]: the call
    is refused with a [TypeError] before the image is evaluated.  On every
    engine and every input [publish] raises that error and its trace is
    empty: no credentials are configured, nothing is pushed and no
    reference is returned, even where the registry would accept the
    push. *)
Theorem publish_raises_type_error :
  forall eng image registry repository username password tag,
    let run := publish eng image registry repository username password tag in
    run = ([], Raise (TypeError "username"))
    /\ pushes (trace_of run) = []
    /\ Forall (fun ev => is_publish_event ev = false) (trace_of run).
Proof.
  intros eng image registry repository username password tag. cbv zeta.
  unfold publish, Container_with_registry_auth. step.
  repeat split; constructor.
Qed.

(** C8.  [build] hands to the container build exactly two build
    arguments, [IMAGE_NAME] with the image name and [SHA_HEAD_SHORT] with
    the commit, whatever was called before: two calls give the same pair
    of argument lists in either order. *)
Theorem build_arguments_deterministic :
  forall source image_name tag base_image git_commit
         source' image_name' tag' base_image' git_commit',
    let args := [ mkBuildArg "IMAGE_NAME" image_name;
                  mkBuildArg "SHA_HEAD_SHORT" git_commit ] in
    let args' := [ mkBuildArg "IMAGE_NAME" image_name';
                   mkBuildArg "SHA_HEAD_SHORT" git_commit' ] in
    (exists c,
        build source image_name tag base_image git_commit = ([], Ok c)
        /\ build_args_of c = args)
    /\ result_of
         (a <- build source image_name tag base_image git_commit ;;
          b <- build source' image_name' tag' base_image' git_commit' ;;
          ret (build_args_of a, build_args_of b)) = Ok (args, args')
    /\ result_of
         (b <- build source' image_name' tag' base_image' git_commit' ;;
          a <- build source image_name tag base_image git_commit ;;
          ret (build_args_of a, build_args_of b)) = Ok (args, args').
Proof.
  intros. cbv zeta. unfold build. step.
  split; [eexists; split; reflexivity|]. split; reflexivity.
Qed.

(** C10.  The description returned by [build] does not depend on [tag]
    nor on [base_image]: two calls that differ only in these parameters
    return the same [docker_build], with the build file [Containerfile]
    and the two build arguments. *)
Theorem build_ignores_tag_and_base_image :
  forall source image_name git_commit tag base_image tag' base_image',
    build source image_name tag base_image git_commit
    = build source image_name tag' base_image' git_commit
    /\ exists c,
        result_of (build source image_name tag base_image git_commit) = Ok c
        /\ result_of (build source image_name tag' base_image' git_commit) = Ok c
        /\ dockerfile_of c = Some "Containerfile"
        /\ build_args_of c = [ mkBuildArg "IMAGE_NAME" image_name;
                               mkBuildArg "SHA_HEAD_SHORT" git_commit ].
Proof.
  intros. unfold build. split; [reflexivity|].
  eexists. repeat split.
Qed.

(** ** Concrete runs *)

(** C1, counterexample.  Validation and build both succeed, and the
    report of the run has four entries (four lines), not two. *)
Lemma ci_pipeline_report_has_four_entries :
  let repository := "joshyorko/dudleys-second-bedroom" in
  let entries := ci_pipeline_results engine_ok some_source repository
                   "ghcr.io" "latest" "abc1234" None None false false in
  let report := ci_pipeline engine_ok some_source repository
                  "ghcr.io" "latest" "abc1234" None None false false in
  succeeded (Container_sync engine_ok (validate some_source))
  /\ succeeded (eval engine_ok (pipeline_image some_source repository "abc1234"))
  /\ ~ (exists l, result_of entries = Ok l /\ length l = 2)
  /\ exists text, result_of report = Ok text
                  /\ length (Py.split "010" text) = 4.
Proof.
  cbv zeta. repeat split.
  - eexists. reflexivity.
  - eexists. reflexivity.
  - intros [l [Hl Hlen]]. vm_compute in Hl. injection Hl as <-.
    discriminate Hlen.
  - eexists. split; [reflexivity|]. vm_compute. reflexivity.
Qed.

(** A run of the two stages on [engine_ok]. *)
Lemma ci_pipeline_validate_build_only_witness :
  succeeded (Container_sync engine_ok (validate some_source))
  /\ result_of
       (ci_pipeline engine_ok some_source "joshyorko/dudleys-second-bedroom"
          "ghcr.io" "latest" "abc1234" None None false false)
     = Ok (Py.join Py.nl
             [ line_validating; line_validated;
               line_building "abc1234"; line_built ]).
Proof.
  assert (H : succeeded (Container_sync engine_ok (validate some_source)))
    by (eexists; reflexivity).
  split; [exact H|].
  destruct (ci_pipeline_validate_build_only engine_ok some_source
              "joshyorko/dudleys-second-bedroom" "ghcr.io" "latest" "abc1234"
              None None) as [_ Hrun].
  destruct (Hrun H) as (_ & _ & _ & Hreport). exact Hreport.
Defined.

(** On [engine_bad_json] the evaluation fails with the error of [jq]. *)
Lemma validate_succeeds_iff_checks_exit_zero_witness :
  result_of (Container_sync engine_bad_json (validate some_source))
  = Raise (ExecError jq_cmd (mkExecResult 2 EmptyString "jq: error: parse error")).
Proof.
  destruct (validate_succeeds_iff_checks_exit_zero engine_bad_json some_source)
    as [_ Hfail].
  apply Hfail.
  - cbn [In validate_checks]. tauto.
  - vm_compute. tauto.
  - vm_compute. discriminate.
Defined.


(** A run whose validation fails: nothing after [validate] is called. *)
Lemma ci_pipeline_stage_order_witness :
  let failure :=
    ExecError jq_cmd (mkExecResult 2 EmptyString "jq: error: parse error") in
  let run :=
    ci_pipeline engine_bad_json some_source "joshyorko/dudleys-second-bedroom"
      "ghcr.io" "latest" "abc1234" (Some (SecretHandle "user"))
      (Some (SecretHandle "token")) true true in
  result_of (Container_sync engine_bad_json (validate some_source)) = Raise failure
  /\ result_of run = Raise failure
  /\ stage_calls (trace_of run) = [Validate].
Proof.
  cbv zeta.
  assert (H : result_of (Container_sync engine_bad_json (validate some_source))
              = Raise (ExecError jq_cmd
                         (mkExecResult 2 EmptyString "jq: error: parse error")))
    by reflexivity.
  split; [exact H|].
  destruct (ci_pipeline_stage_order engine_bad_json some_source
              "joshyorko/dudleys-second-bedroom" "ghcr.io" "latest" "abc1234"
              (Some (SecretHandle "user")) (Some (SecretHandle "token"))
              true true) as (_ & _ & Hvalidation & _).
  destruct (Hvalidation _ H) as (Hresult & _ & Hcalls).
  split; [exact Hresult | exact Hcalls].
Defined.

(** The Containerfile of [engine_ok] is returned as it is. *)
Lemma check_containerfile_returns_contents_witness :
  let bytes := "FROM scratch" ++ Py.nl ++ "COPY / /" ++ Py.nl in
  read_file engine_ok some_source "Containerfile" = Some bytes
  /\ result_of (check_containerfile engine_ok some_source) = Ok bytes.
Proof.
  cbv zeta.
  assert (H : read_file engine_ok some_source "Containerfile"
              = Some ("FROM scratch" ++ Py.nl ++ "COPY / /" ++ Py.nl))
    by reflexivity.
  split; [exact H|].
  exact (proj1 (check_containerfile_returns_contents engine_ok some_source _ H)).
Defined.


(** On [engine_bad_json] the commands stop at [jq]; on [engine_ok] all
    of them run. *)
Lemma validate_fails_at_malformed_json_witness :
  let checking := validate_env some_source in
  (pull engine_bad_json "fedora:41" = true
   /\ exit_code (exec engine_bad_json (from_ dag_container "fedora:41") install_cmd) = 0%Z
   /\ dir_exists engine_bad_json some_source = true
   /\ exit_code (exec engine_bad_json checking shellcheck_cmd) = 0%Z
   /\ exit_code (exec engine_bad_json (with_exec checking shellcheck_cmd) jq_cmd) <> 0%Z)
  /\ commands_run (trace_of (Container_sync engine_bad_json (validate some_source)))
     = [install_cmd; shellcheck_cmd; jq_cmd]
  /\ commands_run (trace_of (Container_sync engine_ok (validate some_source)))
     = [install_cmd; shellcheck_cmd; jq_cmd; modules_cmd; packages_cmd].
Proof.
  cbv zeta.
  assert (Hjq : exit_code
                  (exec engine_bad_json
                     (with_exec (validate_env some_source) shellcheck_cmd) jq_cmd)
                <> 0%Z)
    by (vm_compute; discriminate).
  split; [repeat split; try reflexivity; exact Hjq|].
  destruct (validate_fails_at_malformed_json engine_bad_json some_source)
    as (_ & _ & _ & Hbad).
  destruct (Hbad eq_refl eq_refl eq_refl eq_refl Hjq) as (_ & Hcommands & _).
  split; [exact Hcommands|].
  destruct (validate_fails_at_malformed_json engine_ok some_source)
    as (_ & _ & Hgood & _).
  exact (proj2 (Hgood eq_refl eq_refl eq_refl eq_refl eq_refl eq_refl eq_refl)).
Defined.

(** [build] only describes the image build; the engine builds the image
    when a later stage first evaluates it.  A failing build is therefore
    raised inside [test] (or [publish]), before any of its commands. *)
Example image_build_fails_in_test :
  let run := ci_pipeline engine_bad_build some_source
               "joshyorko/dudleys-second-bedroom" "ghcr.io" "latest" "abc1234"
               None None true false in
  result_of run = Raise (QueryError "failed to build Containerfile")
  /\ stage_calls (trace_of run) = [Validate; Build; Test]
  /\ commands_run (trace_of run) = install_cmd :: validate_checks.
Proof. cbv zeta. repeat split. Qed.

(** Without tests and publication nothing evaluates the image. *)
Example image_not_built_without_test_and_publish :
  let run := ci_pipeline engine_bad_build some_source
               "joshyorko/dudleys-second-bedroom" "ghcr.io" "latest" "abc1234"
               None None false false in
  succeeded run
  /\ stage_calls (trace_of run) = [Validate; Build]
  /\ forall d f args, ~ In (EvImageBuild d f args) (trace_of run).
Proof.
  cbv zeta. repeat split.
  - eexists. reflexivity.
  - intros d f args H. vm_compute in H.
    repeat (destruct H as [H|H]; [discriminate H|]). exact H.
Qed.

(** ** Further facts about the Python helpers *)

(** No piece of a split contains the separator. *)
Lemma split_pieces_no_sep (sep : ascii) (s : string) :
  Forall (fun piece => Py.occurs sep piece = false) (Py.split sep s).
Proof.
  induction s as [|c s IH]; simpl.
  - repeat constructor.
  - destruct (Ascii.eqb c sep) eqn:Ec.
    + constructor; [reflexivity | exact IH].
    + destruct (Py.split sep s) as [|piece pieces].
      * repeat constructor. simpl. now rewrite Ec.
      * inversion IH as [|? ? Hpiece Hpieces]; subst.
        constructor; [|exact Hpieces]. simpl. now rewrite Ec.
Qed.

Lemma last_item_no_sep (sep : ascii) (s : string) :
  Py.occurs sep (Py.last_item (Py.split sep s)) = false.
Proof.
  unfold Py.last_item.
  generalize (split_pieces_no_sep sep s).
  induction (Py.split sep s) as [|piece pieces IH]; intros H; [reflexivity|].
  inversion H as [|? ? Hpiece Hpieces]; subst.
  destruct pieces as [|next pieces]; [exact Hpiece|].
  exact (IH Hpieces).
Qed.

(** A path that ends with a slash has an empty last component. *)
Lemma basename_trailing_slash (dir : string) :
  Py.last_item (Py.split "/" (dir ++ "/")) = EmptyString.
Proof.
  change (dir ++ "/") with (dir ++ "/" ++ EmptyString).
  now rewrite basename_prefix.
Qed.

(** ** The disk-image builders *)

(** X1.  [build_qcow2] names the configuration file by its last path
    component: a [config_file] with a directory prefix and the same
    [config_file] without it give the same description. *)
Theorem build_qcow2_config_by_basename :
  forall source image_ref prefix name,
    build_qcow2 source image_ref (prefix ++ "/" ++ name)
    = build_qcow2 source image_ref name
    /\ exists f,
        result_of (build_qcow2 source image_ref (prefix ++ "/" ++ name)) = Ok f
        /\ option_value "--config" (tool_invocation f)
           = Some ("/config/" ++ Py.last_item (Py.split "/" name)).
Proof.
  intros source image_ref prefix name. unfold build_qcow2.
  rewrite basename_prefix. split; [reflexivity|].
  eexists. repeat split.
Qed.

(** X2.  For every [config_file], both disk-image builders pass the same
    [--config] path, a name directly inside [/config]: the part after
    ["/config/"] contains no slash, so a file in a subdirectory of the
    configuration directory is never selected.  They differ in the
    [--type] they pass, and both end the command line with the image
    reference. *)
Theorem disk_image_config_directly_in_config_dir :
  forall source image_ref config_file,
    exists base iso qcow2,
      Py.occurs "/" base = false
      /\ result_of (build_iso source image_ref config_file) = Ok iso
      /\ result_of (build_qcow2 source image_ref config_file) = Ok qcow2
      /\ option_value "--config" (tool_invocation iso) = Some ("/config/" ++ base)
      /\ option_value "--config" (tool_invocation qcow2) = Some ("/config/" ++ base)
      /\ option_value "--type" (tool_invocation iso) = Some "iso"
      /\ option_value "--type" (tool_invocation qcow2) = Some "qcow2"
      /\ List.last (tool_invocation iso) EmptyString = image_ref
      /\ List.last (tool_invocation qcow2) EmptyString = image_ref.
Proof.
  intros source image_ref config_file.
  exists (Py.last_item (Py.split "/" config_file)).
  do 2 eexists. split; [apply last_item_no_sep|].
  unfold build_iso, build_qcow2. repeat split.
Qed.

(** X3.  A [config_file] that ends with a slash, and the empty
    [config_file], have an empty last component: [build_iso] and
    [build_qcow2] are then both given the configuration directory itself,
    ["/config/"], as the [--config] path. *)
Theorem disk_image_config_trailing_slash :
  forall source image_ref dir,
    (exists iso,
        result_of (build_iso source image_ref (dir ++ "/")) = Ok iso
        /\ option_value "--config" (tool_invocation iso) = Some "/config/")
    /\ (exists qcow2,
        result_of (build_qcow2 source image_ref (dir ++ "/")) = Ok qcow2
        /\ option_value "--config" (tool_invocation qcow2) = Some "/config/")
    /\ (exists iso,
        result_of (build_iso source image_ref EmptyString) = Ok iso
        /\ option_value "--config" (tool_invocation iso) = Some "/config/")
    /\ (exists qcow2,
        result_of (build_qcow2 source image_ref EmptyString) = Ok qcow2
        /\ option_value "--config" (tool_invocation qcow2) = Some "/config/").
Proof.
  intros source image_ref dir. unfold build_iso, build_qcow2.
  rewrite basename_trailing_slash.
  repeat split; eexists; repeat split.
Qed.

(** ** The tester, the linter and the publisher *)

(** X4.  On an image that the engine can evaluate, [test] runs its four
    assertions after the steps of the image, in the order of the source,
    and stops at the first one that fails.  It succeeds if and only if
    each assertion ran and exited with status zero; an assertion that
    exits with a non-zero status is the [ExecError] of the run; and the
    text returned on success is a fixed header followed by the output of
    the last command only, [dudley-build-info --json]. *)
Theorem test_runs_assertions_in_order :
  forall eng image t,
    eval eng image = (t, Ok tt) ->
    let run := test eng image in
    exists t',
      trace_of run = (t ++ t')%list
      /\ is_prefix (commands_run t') test_assertions
      /\ (succeeded run <->
          forall cmd, In cmd test_assertions -> exited_zero t' cmd)
      /\ (forall cmd r,
          In (EvExec cmd r) t' -> exit_code r <> 0%Z ->
          result_of run = Raise (ExecError cmd r))
      /\ (forall text,
          result_of run = Ok text ->
          text = tests_passed_header
                 ++ stdout_of (exec eng (tested image) build_info_cmd)).
Proof.
  intros eng image t Himage. cbv zeta.
  unfold test, Container_stdout, succeeded, exited_zero, test_assertions, tested.
  cbn [eval last_exec]. rewrite Himage. run_steps; exit_codes.
  all: rewrite <- ?app_assoc; cbn [app]; rewrite ?app_nil_r.
  all: eexists; split; [reflexivity|].
  all: split; [unfold commands_run; cbn [flat_map app]; eexists; reflexivity|].
  all: split; [split|split].
  all: lazymatch goal with
       | |- (exists _, _) -> _ =>
           intros [a Ha]; try discriminate Ha;
           intros cmd Hin;
           unfold manifest_cmd, build_info_present_cmd, hooks_cmd,
             build_info_cmd in Hin;
           destruct Hin as [<-|[<-|[<-|[<-|[]]]]]; eexists;
           (split; [repeat first [left; reflexivity | right] | assumption])
       | |- _ -> exists _, _ =>
           intros H; first [ eexists; reflexivity | idtac ];
           try (specialize (H build_info_cmd);
                destruct H as [r [Hin Hz]]; [cbn [In]; tauto|];
                pick_event Hin; contradiction)
       | |- forall _, _ = Ok _ -> _ =>
           intros text Htext; try discriminate Htext;
           injection Htext as <-; reflexivity
       | |- _ =>
           intros cmd r Hin Hnz; pick_event Hin;
           first [ reflexivity | contradiction ]
       end.
Qed.

Section More_engine_facts.

Variable eng : Engine.



End More_engine_facts.

(** X5.  When the image given to [test] cannot be evaluated (its build
    fails), [test] raises that error and its trace is the trace of the
    failed evaluation: none of the assertions runs on an image that was
    not built. *)
Theorem test_propagates_image_failure :
  forall eng image t e,
    eval eng image = (t, Raise e) ->
    test eng image = (t, Raise e).
Proof.
  intros eng image t e Himage.
  unfold test, Container_stdout. cbn [eval]. rewrite Himage. reflexivity.
Qed.

(** X6.  Evaluating the description of [lint_containerfile] runs one
    command, [hadolint Containerfile]; it succeeds if and only if that
    command ran and exited with status zero, and findings (a non-zero
    status) are raised as the [ExecError] of the linter, with its output.
    The linter builds no image and pushes nothing. *)
Theorem lint_containerfile_reports_findings :
  forall eng source,
    let run := Container_sync eng (lint_containerfile source) in
    is_prefix (commands_run (trace_of run)) [lint_cmd]
    /\ (succeeded run <-> exited_zero (trace_of run) lint_cmd)
    /\ (forall r,
        In (EvExec lint_cmd r) (trace_of run) -> exit_code r <> 0%Z ->
        result_of run = Raise (ExecError lint_cmd r))
    /\ image_builds (trace_of run) = []
    /\ pushes (trace_of run) = [].
Proof.
  intros eng source. cbv zeta.
  unfold Container_sync, lint_containerfile, succeeded, exited_zero, lint_cmd.
  cbn [eval]. run_steps; exit_codes.
  all: split; [unfold commands_run; cbn [flat_map app]; eexists; reflexivity|].
  all: split; [split|split; [|split; reflexivity]].
  all: lazymatch goal with
       | |- (exists _ : Container, _) -> _ =>
           intros [a Ha]; try discriminate Ha;
           eexists; (split; [repeat first [left; reflexivity | right]
                            | assumption])
       | |- _ -> exists _, _ =>
           intros H; first [ eexists; reflexivity | idtac ];
           try (destruct H as [r [Hin Hz]]; pick_event Hin; contradiction)
       | |- _ =>
           intros r Hin Hnz; pick_event Hin;
           first [ reflexivity | contradiction ]
       end.
Qed.

(** ** More on the pipeline *)

Section More_pipeline_facts.

Variable eng : Engine.



(** [publish] stops at the type check of [with_registry_auth]. *)
Lemma publish_run (image : Container) (registry repository : string)
  (username password : Secret) (tag : string) :
  publish eng image registry repository username password tag
  = ([], Raise (TypeError "username")).
Proof. reflexivity. Qed.




End More_pipeline_facts.


Lemma is_registry_event_publish (t : Trace) :
  Forall (fun ev => is_publish_event ev = false) t ->
  Forall (fun ev => is_registry_event ev = false) t.
Proof.
  apply Forall_impl. intros ev. now destruct ev as [[]| | | | | |].
Qed.

(** The outcome of [publish] in the cases of a run. *)
Ltac publish_outcome eng :=
  repeat match goal with
  | H : publish eng ?c ?r ?o ?u ?p ?g = (_, _) |- _ =>
      rewrite (publish_run eng c r o u p g) in H;
      first [ discriminate H | injection H as <- <- ]
  end.

(** The stage traces reach the registry nowhere. *)
Ltac registry_free eng :=
  publish_free eng;
  repeat match goal with
  | H : Forall (fun ev => is_publish_event ev = false) _ |- _ =>
      apply is_registry_event_publish in H
  end.

(** X7.  With [publish_image] set and both credentials present, a run
    of [ci_pipeline] whose validation and enabled tests succeed calls
    [publish] and fails there with the [TypeError] of
    [with_registry_auth]: every stage of the plan has been called and no
    report is returned. *)
Theorem ci_pipeline_publish_fails_with_credentials :
  forall eng source repository registry tag git_commit username password
         run_tests publish_image user token,
    let run := ci_pipeline eng source repository registry tag git_commit
                 username password run_tests publish_image in
    let image := pipeline_image source repository git_commit in
    publish_image = true -> username = Some user -> password = Some token ->
    succeeded (Container_sync eng (validate source)) ->
    (run_tests = true -> succeeded (test eng image)) ->
    result_of run = Raise (TypeError "username")
    /\ stage_calls (trace_of run)
       = plan username password run_tests publish_image
    /\ List.last (stage_calls (trace_of run)) Validate = Publish.
Proof.
  intros eng source repository registry tag git_commit username password
    run_tests publish_image user token. cbv zeta. unfold plan.
  pipeline_run eng source run_tests publish_image username password;
    stage_traces eng; publish_outcome eng.
  all: intros Hflag Hu Hp [a Ha] Htests;
    try discriminate; try (destruct (Htests eq_refl) as [b Hb]; discriminate).
  all: repeat split; count_calls; reflexivity.
Qed.

(** X8.  No run of [ci_pipeline] reaches the registry: whatever the
    engine and the arguments, its trace holds no configuration of
    credentials and no push. *)
Theorem ci_pipeline_never_pushes :
  forall eng source repository registry tag git_commit username password
         run_tests publish_image,
    let run := ci_pipeline eng source repository registry tag git_commit
                 username password run_tests publish_image in
    Forall (fun ev => is_registry_event ev = false) (trace_of run)
    /\ pushes (trace_of run) = [].
Proof.
  intros eng source repository registry tag git_commit username password
    run_tests publish_image. cbv zeta.
  assert (Hfree :
            Forall (fun ev => is_registry_event ev = false)
              (trace_of
                 (ci_pipeline eng source repository registry tag git_commit
                    username password run_tests publish_image))).
  { pipeline_run eng source run_tests publish_image username password;
      publish_outcome eng; registry_free eng;
      repeat first
        [ assumption
        | apply Forall_nil
        | apply Forall_cons; [reflexivity|]
        | apply Forall_app; split
        | rewrite app_nil_r ]. }
  split; [exact Hfree|].
  revert Hfree. generalize (trace_of
    (ci_pipeline eng source repository registry tag git_commit
       username password run_tests publish_image)).
  intros t Ht. induction Ht as [|ev t Hev _ IH]; [reflexivity|].
  destruct ev; try discriminate Hev; exact IH.
Qed.

(** X9.  [ci_pipeline] succeeds if and only if the validation succeeds,
    the tests succeed when [run_tests] is set, and no publication is
    attempted: [publish_image] is not set, or the username or the
    password is absent.  On success the report starts with the four lines
    of the validation and the build, followed by two entries for the
    tests when enabled and by one entry, the skip warning, when
    [publish_image] is set. *)
Theorem ci_pipeline_succeeds_iff_stages_succeed :
  forall eng source repository registry tag git_commit username password
         run_tests publish_image,
    let run := ci_pipeline eng source repository registry tag git_commit
                 username password run_tests publish_image in
    let image := pipeline_image source repository git_commit in
    (succeeded run <->
     succeeded (Container_sync eng (validate source))
     /\ (run_tests = true -> succeeded (test eng image))
     /\ (publish_image = true -> username = None \/ password = None))
    /\ (forall entries,
        result_of
          (ci_pipeline_results eng source repository registry tag git_commit
             username password run_tests publish_image) = Ok entries ->
        length entries
        = (4 + test_entries run_tests + skip_entries publish_image)%nat
        /\ firstn 4 entries
           = [ line_validating; line_validated;
               line_building git_commit; line_built ]).
Proof.
  intros eng source repository registry tag git_commit username password
    run_tests publish_image. cbv zeta.
  pipeline_run eng source run_tests publish_image username password;
    publish_outcome eng.
  all: split; [split|].
  all: lazymatch goal with
       | |- (exists _ : string, _) -> _ =>
           intros [a Ha]; try discriminate Ha;
           repeat split; intros; try discriminate;
           first [ eexists; reflexivity
                 | left; reflexivity
                 | right; reflexivity ]
       | |- _ -> exists _ : string, _ =>
           intros (Hv & Ht & Hp); first [ eexists; reflexivity | idtac ];
           try (destruct Hv as [a Ha]; discriminate Ha);
           try (destruct (Ht eq_refl) as [a Ha]; discriminate Ha);
           try (destruct (Hp eq_refl) as [Hnone|Hnone]; discriminate Hnone)
       | |- _ =>
           intros entries Hentries; try discriminate Hentries;
           injection Hentries as <-; split; reflexivity
       end.
Qed.

(** X10.  Without publication the registry, the tag and the credentials
    play no part: two runs with [publish_image=False] that differ only in
    these arguments have the same trace and the same result, so the tag
    reaches neither the build nor the tests. *)
Theorem ci_pipeline_without_publish_ignores_registry :
  forall eng source repository git_commit run_tests
         registry tag username password registry' tag' username' password',
    ci_pipeline eng source repository registry tag git_commit
      username password run_tests false
    = ci_pipeline eng source repository registry' tag' git_commit
        username' password' run_tests false.
Proof.
  intros. unfold ci_pipeline, ci_pipeline_results, call, build. reflexivity.
Qed.




(** ** More concrete runs *)

(** The tests of the image built on [engine_ok]. *)
Lemma test_runs_assertions_in_order_witness :
  let image := pipeline_image some_source "joshyorko/dudleys-second-bedroom"
                 "abc1234" in
  let t := trace_of (eval engine_ok image) in
  eval engine_ok image = (t, Ok tt)
  /\ exists t',
      trace_of (test engine_ok image) = (t ++ t')%list
      /\ is_prefix (commands_run t') test_assertions.
Proof.
  cbv zeta.
  destruct (test_runs_assertions_in_order engine_ok
              (pipeline_image some_source "joshyorko/dudleys-second-bedroom"
                 "abc1234") _ eq_refl) as [t' (Htrace & Horder & _)].
  split; [reflexivity|]. exists t'. split; [exact Htrace | exact Horder].
Defined.

(** On [engine_bad_build] the tests stop at the image build. *)
Lemma test_propagates_image_failure_witness :
  let image := pipeline_image some_source "joshyorko/dudleys-second-bedroom"
                 "abc1234" in
  let failure := QueryError "failed to build Containerfile" in
  result_of (eval engine_bad_build image) = Raise failure
  /\ result_of (test engine_bad_build image) = Raise failure
  /\ commands_run (trace_of (test engine_bad_build image)) = [].
Proof.
  cbv zeta. split; [reflexivity|].
  rewrite (test_propagates_image_failure engine_bad_build
             (pipeline_image some_source "joshyorko/dudleys-second-bedroom"
                "abc1234") _ _ eq_refl).
  split; reflexivity.
Defined.

(** On [engine_lint_findings] the findings are the error of the run. *)
Lemma lint_containerfile_reports_findings_witness :
  result_of (Container_sync engine_lint_findings (lint_containerfile some_source))
  = Raise (ExecError lint_cmd
             (mkExecResult 1 "Containerfile:3 DL3006 warning" EmptyString)).
Proof.
  destruct (lint_containerfile_reports_findings engine_lint_findings some_source)
    as (_ & _ & Hfindings & _).
  apply Hfindings.
  - vm_compute. tauto.
  - vm_compute. discriminate.
Defined.


(** A full run on [engine_ok]: the registry would accept the push, and
    the run fails in [publish]. *)
Lemma ci_pipeline_publish_fails_with_credentials_witness :
  let user := SecretHandle "user" in
  let token := SecretHandle "token" in
  let run := ci_pipeline engine_ok some_source "joshyorko/dudleys-second-bedroom"
               "ghcr.io" "latest" "abc1234" (Some user) (Some token)
               true true in
  succeeded (Container_sync engine_ok (validate some_source))
  /\ succeeded
       (test engine_ok
          (pipeline_image some_source "joshyorko/dudleys-second-bedroom"
             "abc1234"))
  /\ result_of run = Raise (TypeError "username")
  /\ stage_calls (trace_of run) = [Validate; Build; Test; Publish].
Proof.
  cbv zeta.
  assert (Hv : succeeded (Container_sync engine_ok (validate some_source)))
    by (eexists; reflexivity).
  assert (Ht : succeeded
                 (test engine_ok
                    (pipeline_image some_source
                       "joshyorko/dudleys-second-bedroom" "abc1234")))
    by (eexists; reflexivity).
  split; [exact Hv|]. split; [exact Ht|].
  destruct (ci_pipeline_publish_fails_with_credentials engine_ok some_source
              "joshyorko/dudleys-second-bedroom" "ghcr.io" "latest" "abc1234"
              (Some (SecretHandle "user")) (Some (SecretHandle "token"))
              true true (SecretHandle "user") (SecretHandle "token")
              eq_refl eq_refl eq_refl Hv (fun _ => Ht))
    as (Hresult & Hcalls & _).
  split; [exact Hresult | exact Hcalls].
Defined.

(** A run on [engine_ok] with a username and no password succeeds. *)
Lemma ci_pipeline_succeeds_iff_stages_succeed_witness :
  succeeded
    (ci_pipeline engine_ok some_source "joshyorko/dudleys-second-bedroom"
       "ghcr.io" "latest" "abc1234" (Some (SecretHandle "user")) None
       true true).
Proof.
  destruct (ci_pipeline_succeeds_iff_stages_succeed engine_ok some_source
              "joshyorko/dudleys-second-bedroom" "ghcr.io" "latest" "abc1234"
              (Some (SecretHandle "user")) None true true) as [[_ Hstages] _].
  apply Hstages. repeat split.
  - eexists. reflexivity.
  - intros _. eexists. reflexivity.
  - intros _. right. reflexivity.
Defined.
